(** * Nutritional formulas of [teste.py]: a shallow embedding

    The formula layer of the calculator (the functions above the
    Streamlit interface) is embedded function by function.

    Numbers.  Python floats are idealised as exact rationals [Q]: a
    decimal literal of the source denotes its exact decimal value, the
    arithmetic operators are the field operations, and [<=], [<], [==]
    are the order and equality of [Q] ([Qle_bool], [Qeq_bool]).
    Rounding, infinities and NaN are outside this model.

    Control.  A call either returns a float, returns [None], or raises;
    [outcome] has one constructor for each.  A parameter annotated with
    an [Enum] class is an [arg]: a member of the class, or a foreign
    object that compares unequal to every member. *)

From Stdlib Require Import QArith Qreals Reals Lra Lqa.
From Stdlib Require Import ZArith Znat Bool String List Factorial.
From Stdlib Require Import Lia Qround.
Import ListNotations.

Open Scope string_scope.
Open Scope Q_scope.

(** ** Enumerations (teste.py, lines 10-25) *)

Inductive Sexo : Set := MASCULINO | FEMININO.
Inductive Raca : Set := BRANCA | NEGRA.
Inductive Condicao : Set := OBESIDADE | DESNUTRICAO.
Inductive NivelAtividade : Set := LEVE_MODERADA | RESTRITA_INTENSA | RESTRICAO_GRAVE.

(** The [.value] of each member of [NivelAtividade]. *)
Definition NivelAtividade_value (n : NivelAtividade) : string :=
  match n with
  | LEVE_MODERADA => "leve a moderada"
  | RESTRITA_INTENSA => "restrita intensa"
  | RESTRICAO_GRAVE => "restrição física grave"
  end.

(** Member equality of an enumeration ([==] on [Enum] members). *)
Class EnumEq (E : Type) := enum_eqb : E -> E -> bool.

#[global] Instance Sexo_eq : EnumEq Sexo := fun a b =>
  match a, b with
  | MASCULINO, MASCULINO | FEMININO, FEMININO => true
  | _, _ => false
  end.

#[global] Instance Raca_eq : EnumEq Raca := fun a b =>
  match a, b with
  | BRANCA, BRANCA | NEGRA, NEGRA => true
  | _, _ => false
  end.

#[global] Instance Condicao_eq : EnumEq Condicao := fun a b =>
  match a, b with
  | OBESIDADE, OBESIDADE | DESNUTRICAO, DESNUTRICAO => true
  | _, _ => false
  end.

(** An actual argument for a parameter annotated with the enumeration
    [E].  Python does not enforce the annotation: the caller may pass a
    member, or anything else (for instance the bare string of a
    selection box), kept here by its printed form. *)
Inductive arg (E : Type) : Type :=
| Member (e : E)
| Foreign (repr : string).
Arguments Member {E} e.
Arguments Foreign {E} repr.

(** [a == E.m] in the source. *)
Definition is_member {E} `{EnumEq E} (a : arg E) (m : E) : bool :=
  match a with
  | Member e => enum_eqb e m
  | Foreign _ => false
  end.

(** ** Outcomes of a call *)

Inductive exn : Set :=
| ValueError (msg : string)
| TypeError (msg : string)
| UnboundLocalError (name : string).

Inductive outcome : Set :=
| Return (v : Q)
| ReturnNone
| Raise (e : exn).

(** The outcomes the specification calls a validation failure: a
    [ValueError] raised by a guard. *)
Definition validation_failure (o : outcome) : Prop :=
  exists msg, o = Raise (ValueError msg).

(** Two outcomes agree when they are the same kind of outcome and, for
    returned numbers, the numbers are equal as rationals. *)
Definition outcome_eq (o1 o2 : outcome) : Prop :=
  match o1, o2 with
  | Return a, Return b => a == b
  | ReturnNone, ReturnNone => True
  | Raise e1, Raise e2 => e1 = e2
  | _, _ => False
  end.

(** ** Comparisons and truth values *)

Definition Qlt_bool (x y : Q) : bool := negb (Qle_bool y x).

(** Truth value of an [Optional[float]]: [None] and zero are false. *)
Definition truthy (o : option Q) : bool :=
  match o with
  | Some x => negb (Qeq_bool x 0)
  | None => false
  end.

(** ** Body composition and anthropometry *)

(** [calcular_peso_ajustado], lines 28-37. *)
Definition calcular_peso_ajustado
    (peso_atual peso_ideal : Q) (condicao : arg Condicao) : outcome :=
  if Qle_bool peso_atual 0 || Qle_bool peso_ideal 0 then
    Raise (ValueError "Pesos devem ser valores positivos")
  else if is_member condicao OBESIDADE then
    Return ((peso_atual - peso_ideal) * 0.25 + peso_ideal)
  else if is_member condicao DESNUTRICAO then
    Return ((peso_atual - peso_ideal) * 0.25 + peso_atual)
  else ReturnNone.

(** [estimar_peso_crianca], lines 45-60.  Inside the branch of a sex,
    an ethnicity that matches neither [elif] falls out of the whole
    conditional, to the final [return None]. *)
Definition estimar_peso_crianca
    (altura_joelho perimetro_braco : Q) (sexo : arg Sexo) (raca : arg Raca)
    : outcome :=
  if Qle_bool altura_joelho 0 || Qle_bool perimetro_braco 0 then
    Raise (ValueError "Medidas devem ser positivas")
  else if is_member sexo MASCULINO then
    if is_member raca BRANCA then
      Return (altura_joelho * 0.68 + perimetro_braco * 2.64 - 50.08)
    else if is_member raca NEGRA then
      Return (altura_joelho * 0.59 + perimetro_braco * 2.73 - 48.32)
    else ReturnNone
  else if is_member sexo FEMININO then
    if is_member raca BRANCA then
      Return (altura_joelho * 0.77 + perimetro_braco * 2.47 - 50.16)
    else if is_member raca NEGRA then
      Return (altura_joelho * 0.71 + perimetro_braco * 2.59 - 50.43)
    else ReturnNone
  else ReturnNone.

(** [calcular_area_gorda_braco], lines 118-122.  The source divides by
    the literal [3.14]. *)
Definition calcular_area_gorda_braco
    (circunferencia_braco area_muscular_braco : Q) : outcome :=
  if Qle_bool circunferencia_braco 0 || Qle_bool area_muscular_braco 0 then
    Raise (ValueError "Medidas devem ser positivas")
  else
    Return (0.79 * ((circunferencia_braco / 3.14) ^ 2) - area_muscular_braco).

(** ** Energy and metabolism *)

(** The two messages of [calcular_gasto_energetico_total].  The
    specification names the second failure [InvalidCombination]. *)
Definition ERENaoPositivo : exn := ValueError "ERE deve ser positivo".
Definition InvalidCombination : exn :=
  ValueError "Use apenas fator de atividade OU fator de estresse".

(** [ere * fator] where [fator] is an [Optional[float]]: multiplying
    a float by [None] raises [TypeError]. *)
Definition times (ere : Q) (fator : option Q) : outcome :=
  match fator with
  | Some f => Return (ere * f)
  | None =>
      Raise (TypeError "unsupported operand type(s) for *: 'float' and 'NoneType'")
  end.

(** [calcular_gasto_energetico_total], lines 154-167.  The optional
    factors are tested by their truth value. *)
Definition calcular_gasto_energetico_total
    (ere : Q) (fator_atividade fator_estresse : option Q) : outcome :=
  if Qle_bool ere 0 then Raise ERENaoPositivo
  else if truthy fator_atividade && truthy fator_estresse then
    Raise InvalidCombination
  else if truthy fator_atividade then times ere fator_atividade
  else if truthy fator_estresse then times ere fator_estresse
  else Return ere.

(** A factor that is supplied and is not zero: what the truth-value
    test of the source accepts. *)
Definition given_nonzero (fator : option Q) : Prop :=
  exists x, fator = Some x /\ ~ x == 0.

(** The guard shared by the formulas whose arguments "must be
    positive". *)
Definition ValoresNaoPositivos : exn := ValueError "Valores devem ser positivos".

(** [calcular_requerimento_energetico], lines 169-193. *)
Definition calcular_requerimento_energetico
    (idade peso estatura : Q) (sexo : arg Sexo) (fator_atividade : Q)
    : outcome :=
  if Qlt_bool idade 0 || Qle_bool peso 0 || Qle_bool estatura 0
     || Qle_bool fator_atividade 0 then
    Raise ValoresNaoPositivos
  else if Qle_bool idade 0.25 then Return (89 * peso - 100 + 175)
  else if Qle_bool idade 0.5 then Return (89 * peso - 100 + 56)
  else if Qle_bool idade 1 then Return (89 * peso - 100 + 22)
  else if Qle_bool idade 2.92 then Return (89 * peso - 100 + 20)
  else if Qle_bool 3 idade && Qlt_bool idade 9 then
    if is_member sexo MASCULINO then
      Return (88.5 - 61.9 * idade
              + fator_atividade * (26.7 * peso + 903 * estatura) + 20)
    else
      Return (135.3 - 30.8 * idade
              + fator_atividade * (10 * peso + 934 * estatura) + 20)
  else if Qle_bool 9 idade && Qle_bool idade 18 then
    if is_member sexo MASCULINO then
      Return (88.5 - 61.9 * idade
              + fator_atividade * (26.7 * peso + 903 * estatura) + 25)
    else
      Return (135.3 - 30.8 * idade
              + fator_atividade * (10 * peso + 934 * estatura) + 25)
  else ReturnNone.

(** The local variable [base] of [calcular_necessidade_pc] after the
    two conditionals of lines 222-235: bound to a number when an age
    band matched, left unbound otherwise. *)
Definition calcular_necessidade_pc_base
    (peso altura : Q) (sexo : arg Sexo) (idade : Q) : option Q :=
  if is_member sexo FEMININO then
    if Qle_bool idade 3 then Some (16.25 * peso + 1023.2 * altura - 413.5)
    else if Qle_bool idade 10 then Some (16.97 * peso + 161.8 * altura + 371.2)
    else if Qle_bool idade 18 then Some (8.365 * peso + 465 * altura + 200)
    else None
  else
    if Qle_bool idade 3 then Some (0.167 * peso + 1517.4 * altura - 617.6)
    else if Qle_bool idade 10 then Some (19.6 * peso + 130.3 * altura + 414.9)
    else if Qle_bool idade 18 then Some (16.25 * peso + 137.2 * altura + 515.5)
    else None.

(** [calcular_necessidade_pc], lines 216-236.  Reading the unbound
    local [base] in the last line raises [UnboundLocalError]. *)
Definition calcular_necessidade_pc
    (peso altura : Q) (sexo : arg Sexo) (idade fator_estresse : Q) : outcome :=
  if Qle_bool peso 0 || Qle_bool altura 0 || Qlt_bool idade 0
     || Qle_bool fator_estresse 0 then
    Raise ValoresNaoPositivos
  else
    match calcular_necessidade_pc_base peso altura sexo idade with
    | Some base => Return (base * fator_estresse)
    | None => Raise (UnboundLocalError "base")
    end.

(** [calcular_tmb], lines 195-214: the sibling of the function above
    that ends in an explicit [return None]. *)
Definition calcular_tmb (peso idade : Q) (sexo : arg Sexo) : outcome :=
  if Qle_bool peso 0 || Qlt_bool idade 0 then
    Raise (ValueError "Peso e idade devem ser positivos")
  else if is_member sexo MASCULINO then
    if Qle_bool idade 3 then Return (60.9 * peso - 54)
    else if Qle_bool idade 10 then Return (22.7 * peso + 495)
    else if Qle_bool idade 18 then Return (17.5 * peso + 651)
    else ReturnNone
  else
    if Qle_bool idade 3 then Return (61 * peso - 51)
    else if Qle_bool idade 10 then Return (22.5 * peso + 499)
    else if Qle_bool idade 18 then Return (12.2 * peso + 746)
    else ReturnNone.

(** [necessidade_energetica_pc_5_11], lines 238-246.  The level is a
    string, compared with the values of [NivelAtividade]; the last
    line returns the number zero. *)
Definition necessidade_energetica_pc_5_11
    (altura : Q) (nivel_atividade : string) : outcome :=
  if String.eqb nivel_atividade (NivelAtividade_value LEVE_MODERADA) then
    Return (13.9 * altura)
  else if String.eqb nivel_atividade (NivelAtividade_value RESTRITA_INTENSA) then
    Return (10 * altura)
  else if String.eqb nivel_atividade (NivelAtividade_value RESTRICAO_GRAVE) then
    Return (11.1 * altura)
  else Return 0.

(** [necessidade_energetica_pc_estaveis], lines 248-256. *)
Definition necessidade_energetica_pc_estaveis
    (altura : Q) (condicao_motora : string) : outcome :=
  if String.eqb condicao_motora "sem disfunção motora" then
    Return (15 * altura)
  else if String.eqb condicao_motora "não deambular (caminhar)" then
    Return (11 * altura)
  else if String.eqb condicao_motora "não apresentar disfunção mas deambular" then
    Return (14 * altura)
  else Return 0.

(** The motor conditions the interface offers for the function above,
    in the order of its selection box (lines 974-976): without motor
    dysfunction, walking, not walking. *)
Inductive MotorCondition : Set := NoDysfunction | Ambulatory | NonAmbulatory.

Definition condicoes_motoras : list string :=
  [ "sem disfunção motora";
    "não apresentar disfunção mas deambular";
    "não deambular (caminhar)" ].

Definition MotorCondition_index (m : MotorCondition) : nat :=
  match m with
  | NoDysfunction => 0
  | Ambulatory => 1
  | NonAmbulatory => 2
  end.

Definition MotorCondition_value (m : MotorCondition) : string :=
  nth (MotorCondition_index m) condicoes_motoras "".

(** The coefficient per centimetre of each motor condition. *)
Definition MotorCondition_coefficient (m : MotorCondition) : Q :=
  match m with
  | NoDysfunction => 15
  | Ambulatory => 14
  | NonAmbulatory => 11
  end.

(** [geb_critica], lines 272-274: a single [return]. *)
Definition geb_critica (idade_meses peso temp_c : Q) : outcome :=
  Return ((17 * idade_meses + 48 * peso + 292 * temp_c - 9677) * 0.239).

(** [tmb_schofield], lines 276-292. *)
Definition tmb_schofield
    (peso estatura idade : Q) (sexo : arg Sexo) : outcome :=
  if is_member sexo MASCULINO then
    if Qle_bool idade 3 then Return (54.48 * peso - 30.33)
    else if Qle_bool idade 10 then Return (22.7 * peso + 505)
    else if Qle_bool idade 18 then Return (13.4 * peso + 693)
    else ReturnNone
  else
    if Qle_bool idade 3 then Return (58.29 * peso - 31.05)
    else if Qle_bool idade 10 then Return (20.3 * peso + 486)
    else if Qle_bool idade 18 then Return (17.7 * peso + 659)
    else ReturnNone.

(** ** Further formulas of the same layer *)

(** [calcular_perda_peso], lines 39-43.  Only the usual weight is
    checked. *)
Definition calcular_perda_peso (peso_usual peso_atual : Q) : outcome :=
  if Qle_bool peso_usual 0 then
    Raise (ValueError "Peso usual deve ser maior que zero")
  else Return (((peso_usual - peso_atual) / peso_usual) * 100).

(** [estimar_estatura_tibia], lines 62-66. *)
Definition estimar_estatura_tibia (comprimento_tibia : Q) : outcome :=
  if Qle_bool comprimento_tibia 0 then
    Raise (ValueError "Comprimento da tíbia deve ser positivo")
  else Return (3.26 * comprimento_tibia + 30.8).

(** [calcular_idade_corrigida], lines 74-78. *)
Definition calcular_idade_corrigida
    (idade_cronologica_meses idade_gestacional_semanas : Q) : outcome :=
  if Qlt_bool idade_gestacional_semanas 20
     || Qlt_bool 42 idade_gestacional_semanas then
    Raise (ValueError "Idade gestacional deve estar entre 20-42 semanas")
  else
    Return (idade_cronologica_meses
            - (40 - idade_gestacional_semanas) / 4.34524).

(** [x in xs] for a list of integers. *)
Definition in_list (x : Z) (xs : list Z) : bool := existsb (Z.eqb x) xs.

(** [calcular_percentual_gordura], lines 80-110.  The Tanner stage is
    an [int].  For a boy whose ethnicity matches neither [BRANCA] nor
    [NEGRA] no [return] is reached and the call gives [None]. *)
Definition calcular_percentual_gordura
    (soma_dobras : Q) (sexo : arg Sexo) (estagio_tanner : Z) (raca : arg Raca)
    : outcome :=
  if Qle_bool soma_dobras 0 then
    Raise (ValueError "Soma de dobras deve ser positiva")
  else if negb (in_list estagio_tanner [1; 2; 3; 4; 5]%Z) then
    Raise (ValueError "Estágio de Tanner deve ser entre 1 e 5")
  else if Qlt_bool 35 soma_dobras then
    if is_member sexo MASCULINO then Return (0.783 * soma_dobras + 1.6)
    else Return (0.546 * soma_dobras + 9.7)
  else if is_member sexo MASCULINO then
    if is_member raca BRANCA then
      if in_list estagio_tanner [1; 2]%Z then
        Return (1.21 * soma_dobras - 0.008 * soma_dobras ^ 2 - 1.7)
      else if Z.eqb estagio_tanner 3 then
        Return (1.21 * soma_dobras - 0.008 * soma_dobras ^ 2 - 3.4)
      else if in_list estagio_tanner [4; 5]%Z then
        Return (1.21 * soma_dobras - 0.008 * soma_dobras ^ 2 - 5.5)
      else ReturnNone
    else if is_member raca NEGRA then
      if in_list estagio_tanner [1; 2]%Z then
        Return (1.21 * soma_dobras - 0.008 * soma_dobras ^ 2 - 3.2)
      else if Z.eqb estagio_tanner 3 then
        Return (1.21 * soma_dobras - 0.008 * soma_dobras ^ 2 - 5.2)
      else if in_list estagio_tanner [4; 5]%Z then
        Return (1.21 * soma_dobras - 0.008 * soma_dobras ^ 2 - 6.8)
      else ReturnNone
    else ReturnNone
  else Return (1.33 * soma_dobras - 0.013 * soma_dobras ^ 2 - 2.5).

(** [calcular_circ_muscular_braco], lines 112-116. *)
Definition calcular_circ_muscular_braco
    (perimetro_braco dobra_tricipital : Q) : outcome :=
  if Qle_bool perimetro_braco 0 || Qle_bool dobra_tricipital 0 then
    Raise (ValueError "Medidas devem ser positivas")
  else Return (perimetro_braco - (0.314 * (dobra_tricipital / 10))).

(** [calcular_area_muscular_braco], lines 124-129. *)
Definition calcular_area_muscular_braco
    (circunferencia_braco dobra_tricipital : Q) : outcome :=
  if Qle_bool circunferencia_braco 0 || Qle_bool dobra_tricipital 0 then
    Raise (ValueError "Medidas devem ser positivas")
  else
    let dobra_cm := dobra_tricipital / 10 in
    Return (((circunferencia_braco - 0.314 * dobra_cm) ^ 2) / 12.56).

(** A [dict] with string keys, in insertion order, and its lookup;
    [None] stands for the [KeyError] of a missing key. *)
Definition dict : Set := list (string * Q).

Fixpoint dict_get (d : dict) (key : string) : option Q :=
  match d with
  | [] => None
  | (k, v) :: rest => if String.eqb k key then Some v else dict_get rest key
  end.

Definition dict_values (d : dict) : list Q := map snd d.

(** [estimar_estatura_paralisia_cerebral], lines 131-139: no guard,
    and a dictionary of three estimates as result. *)
Definition estimar_estatura_paralisia_cerebral
    (comprimento_superior comprimento_tibial comprimento_joelho : Q) : dict :=
  [ ("Estimada_CT", 3.26 * comprimento_tibial + 30.8 + 1.4);
    ("Estimada_CS", 4.35 * comprimento_superior + 21.8 + 1.7);
    ("Estimada_CJ", 2.69 * comprimento_joelho + 24.2 + 1.1) ].

(** [estimar_estatura_paralisia_adolescente], lines 141-144. *)
Definition estimar_estatura_paralisia_adolescente
    (idade : Q) (sexo : arg Sexo) (comprimento_ulna : Q) : outcome :=
  let sexo_bin : Q := if is_member sexo MASCULINO then 1 else 0 in
  Return (30.35 + (1.29 * idade) + (0.77 * sexo_bin) + (4.32 * comprimento_ulna)).

(** [calcular_peso_corrigido_amputacao], lines 146-152. *)
Definition calcular_peso_corrigido_amputacao
    (peso_atual percentual_amputacao : Q) : outcome :=
  if Qle_bool peso_atual 0 then
    Raise (ValueError "Peso atual deve ser positivo")
  else if Qlt_bool percentual_amputacao 0
          || Qle_bool 100 percentual_amputacao then
    Raise (ValueError "Percentual de amputação deve estar entre 0-100%")
  else Return (peso_atual * 100 / (100 - percentual_amputacao)).

(** [necessidade_energetica_pc], lines 258-263. *)
Definition necessidade_energetica_pc
    (peso altura idade : Q) (sexo : arg Sexo) : outcome :=
  if is_member sexo MASCULINO then
    Return (66.5 + (13.75 * peso) + (5.003 * altura) - (6.775 * idade))
  else
    Return (65.1 + (9.56 * peso) + (1.85 * altura) - (4.676 * idade)).

(** [necessidade_sindrome_down], lines 265-270. *)
Definition necessidade_sindrome_down (altura : Q) (sexo : arg Sexo) : outcome :=
  if is_member sexo MASCULINO then Return (16.1 * altura)
  else Return (14.3 * altura).

(** ** The pages of the interface that post-process a result *)


(** [int(x)]: truncation towards zero. *)
Definition py_int (x : Q) : Z := Z.quot (Qnum x) (Zpos (Qden x)).

(** The percentile of the page "Área Muscular do Braço (AMB)", line
    656: [min(int((resultado / 50) * 100), 100)]. *)
Definition percentil (resultado : Q) : Z :=
  Z.min (py_int ((resultado / 50) * 100)) 100.

(** The mean of the page "Estatura - Paralisia Cerebral", line 702:
    [sum(resultados.values()) / len(resultados)]. *)
Definition py_sum (xs : list Q) : Q := fold_left Qplus xs 0.

Definition media (resultados : dict) : Q :=
  py_sum (dict_values resultados) / inject_Z (Z.of_nat (length resultados)).

(** The limbs offered by the page "Peso Corrigido para Amputação"
    (line 752) and its table of proportions (lines 755-762). *)
Definition membros : list string :=
  [ "Braço"; "Antebraço"; "Mão"; "Coxa"; "Perna"; "Pé" ].

Definition proporcoes : dict :=
  [ ("Braço", 2.7); ("Antebraço", 1.6); ("Mão", 0.7);
    ("Coxa", 10.1); ("Perna", 4.4); ("Pé", 1.5) ].

(** Lines 765-766: look the limb up, then correct the weight.  [None]
    is the [KeyError] of a limb missing from the table. *)
Definition pagina_amputacao (peso_atual : Q) (membro_amputado : string)
    : option outcome :=
  match dict_get proporcoes membro_amputado with
  | Some percentual => Some (calcular_peso_corrigido_amputacao peso_atual percentual)
  | None => None
  end.

(** The page "Gasto Energético Total (GET)", lines 811-828: a factor
    is passed on only when it exceeds 1.0, and with two such factors
    the page warns and does not call ([None]). *)
Definition pagina_get (ere fator_atividade fator_estresse : Q)
    : option outcome :=
  let usar_atividade := Qlt_bool 1 fator_atividade in
  let usar_estresse := Qlt_bool 1 fator_estresse in
  if usar_atividade && usar_estresse then None
  else if usar_atividade then
    Some (calcular_gasto_energetico_total ere (Some fator_atividade) None)
  else if usar_estresse then
    Some (calcular_gasto_energetico_total ere None (Some fator_estresse))
  else Some (calcular_gasto_energetico_total ere None None).

(** * Properties *)

(** ** Resolving guards and age bands *)

Lemma Qlt_bool_iff (x y : Q) : Qlt_bool x y = true <-> x < y.
Proof.
  unfold Qlt_bool. rewrite negb_true_iff, <- not_true_iff_false, Qle_bool_iff.
  split; [apply Qnot_le_lt | apply Qlt_not_le].
Qed.

Lemma Qle_bool_false (x y : Q) : Qle_bool x y = false <-> y < x.
Proof.
  rewrite <- not_true_iff_false, Qle_bool_iff.
  split; [apply Qnot_le_lt | apply Qlt_not_le].
Qed.

Lemma Qle_bool_true (x y : Q) : x <= y -> Qle_bool x y = true.
Proof. apply Qle_bool_iff. Qed.

Lemma truthy_Some (x : Q) : truthy (Some x) = true <-> ~ x == 0.
Proof.
  simpl. rewrite negb_true_iff, <- not_true_iff_false, Qeq_bool_iff. tauto.
Qed.

(** Splits on the first comparison of the goal and turns the boolean
    equation into the order fact it stands for. *)
Ltac split_cmp :=
  match goal with
  | |- context [Qle_bool ?a ?b] =>
      let E := fresh "E" in
      destruct (Qle_bool a b) eqn:E;
      [apply Qle_bool_iff in E | apply Qle_bool_false in E]
  end.

(** Runs a formula through all of its comparisons; branches whose
    order facts contradict the hypotheses are closed by [lra]. *)
Ltac bands :=
  unfold Qlt_bool; repeat split_cmp; cbn [negb orb andb];
  try (exfalso; lra).

Lemma positive_guard (x : Q) : 0 < x -> Qle_bool x 0 = false.
Proof. apply Qle_bool_false. Qed.

Lemma nonnegative_guard (x : Q) : 0 <= x -> Qlt_bool x 0 = false.
Proof.
  intros H. unfold Qlt_bool. now rewrite (Qle_bool_true _ _ H).
Qed.

(** Discharges the validation guard of a formula from positivity
    hypotheses of the context. *)
Ltac guards :=
  rewrite ?positive_guard, ?nonnegative_guard by assumption;
  cbn [orb].

(** ** Adjusted weight *)

(** C8.  For both conditions, Obesity and Malnutrition, and positive
    actual and ideal weights with [actual == ideal], the adjusted weight
    is [ideal]: each branch degenerates to the same value. *)
Theorem peso_ajustado_at_ideal (c : Condicao) (actual ideal : Q) :
  0 < actual -> 0 < ideal -> actual == ideal ->
  exists v, calcular_peso_ajustado actual ideal (Member c) = Return v
            /\ v == ideal.
Proof.
  intros Ha Hi Heq. unfold calcular_peso_ajustado.
  guards.
  destruct c; cbn; eexists; (split; [reflexivity | lra]).
Qed.

Lemma peso_ajustado_at_ideal_witness :
  exists v, calcular_peso_ajustado 70 70 (Member DESNUTRICAO) = Return v
            /\ v == 70.
Proof.
  apply (peso_ajustado_at_ideal DESNUTRICAO 70 70); reflexivity.
Defined.

(** Away from [actual == ideal] the two branches differ, and an
    argument that is no member of [Condicao] reaches [return None]. *)
Example peso_ajustado_branches :
  calcular_peso_ajustado 100 60 (Member OBESIDADE) = Return ((100 - 60) * 0.25 + 60)
  /\ calcular_peso_ajustado 100 60 (Member DESNUTRICAO) = Return ((100 - 60) * 0.25 + 100)
  /\ calcular_peso_ajustado 100 60 (Foreign "obesidade") = ReturnNone.
Proof. repeat split. Qed.

(** ** Child weight estimate *)

(** C10.  For both sexes, both ethnicities and positive knee height
    and arm circumference the estimate is a number: with members of the
    two enumerations the final [return None] is not reached. *)
Theorem peso_crianca_members_numeric
    (s : Sexo) (r : Raca) (altura_joelho perimetro_braco : Q) :
  0 < altura_joelho -> 0 < perimetro_braco ->
  exists v,
    estimar_peso_crianca altura_joelho perimetro_braco (Member s) (Member r)
    = Return v.
Proof.
  intros Hj Hb. unfold estimar_peso_crianca.
  guards.
  destruct s, r; cbn; eexists; reflexivity.
Qed.

Lemma peso_crianca_members_numeric_witness :
  exists v, estimar_peso_crianca 45 22 (Member FEMININO) (Member NEGRA) = Return v.
Proof.
  apply (peso_crianca_members_numeric FEMININO NEGRA 45 22); reflexivity.
Defined.

(** The branch exists: a sex or an ethnicity outside the enumerations
    gives [None]. *)
Lemma peso_crianca_foreign (aj pb : Q) (sexo : arg Sexo) (raca : arg Raca) :
  0 < aj -> 0 < pb ->
  (exists x, sexo = Foreign x) \/ (exists x, raca = Foreign x) ->
  estimar_peso_crianca aj pb sexo raca = ReturnNone.
Proof.
  intros Hj Hb H. unfold estimar_peso_crianca.
  guards.
  destruct H as [[x ->] | [x ->]]; [reflexivity |].
  destruct sexo as [[] | ]; reflexivity.
Qed.

(** ** Schofield equation *)

(** C9.  For every weight, age and sex the Schofield rate is the same
    for any two heights: no band reads the height argument. *)
Theorem tmb_schofield_ignores_estatura
    (peso idade : Q) (sexo : arg Sexo) (estatura1 estatura2 : Q) :
  tmb_schofield peso estatura1 idade sexo
  = tmb_schofield peso estatura2 idade sexo.
Proof. reflexivity. Qed.

(** Each of the three bands, and the outcome above them, for either
    sex. *)
Lemma tmb_schofield_bands (peso estatura idade : Q) (s : Sexo) :
  tmb_schofield peso estatura idade (Member s) =
    if Qle_bool idade 3 then
      Return (match s with MASCULINO => 54.48 * peso - 30.33
                         | FEMININO => 58.29 * peso - 31.05 end)
    else if Qle_bool idade 10 then
      Return (match s with MASCULINO => 22.7 * peso + 505
                         | FEMININO => 20.3 * peso + 486 end)
    else if Qle_bool idade 18 then
      Return (match s with MASCULINO => 13.4 * peso + 693
                         | FEMININO => 17.7 * peso + 659 end)
    else ReturnNone.
Proof.
  unfold tmb_schofield. destruct s; cbn; repeat split_cmp; reflexivity.
Qed.

(** ** Basal expenditure of the critically ill child *)

(** The function has no guard: it returns for every argument. *)
Lemma geb_critica_total (idade_meses peso temp_c : Q) :
  ~ validation_failure (geb_critica idade_meses peso temp_c).
Proof. intros [msg H]. discriminate H. Qed.

(** C5, refuted as stated.  With the weight [-5] the call does not
    fail: it returns 260.749 computed from the negative weight. *)
Lemma geb_critica_negative_weight_computed :
  -5 <= 0
  /\ (exists v, geb_critica 12 (-5) 37 = Return v /\ v == 260.749)
  /\ ~ validation_failure (geb_critica 12 (-5) 37).
Proof.
  split; [discriminate |]. split; [| apply geb_critica_total].
  eexists; split; reflexivity.
Qed.

(** C5, as the code has it.  For every age in months and every
    temperature, a weight [<= 0] is not rejected: the call returns the
    linear combination, converted by 0.239, computed from that weight. *)
Theorem geb_critica_unvalidated (idade_meses peso temp_c : Q) :
  peso <= 0 ->
  exists v,
    geb_critica idade_meses peso temp_c = Return v
    /\ v == (17 * idade_meses + 48 * peso + 292 * temp_c - 9677) * 0.239.
Proof. intros _. eexists; split; reflexivity. Qed.

Lemma geb_critica_unvalidated_witness :
  exists v,
    geb_critica 6 0 36.5 = Return v
    /\ v == (17 * 6 + 48 * 0 + 292 * 36.5 - 9677) * 0.239.
Proof. apply (geb_critica_unvalidated 6 0 36.5). discriminate. Defined.

(** ** Cerebral palsy: energy by activity level and by motor condition *)

(** C6, refuted as stated.  A level that is none of the three values
    of [NivelAtividade] yields the number [0], not [None]. *)
Lemma pc_5_11_unknown_level_zero :
  (forall n, "acamado" <> NivelAtividade_value n)
  /\ necessidade_energetica_pc_5_11 120 "acamado" = Return 0
  /\ necessidade_energetica_pc_5_11 120 "acamado" <> ReturnNone.
Proof.
  split; [intros []; discriminate |]. split; [reflexivity | discriminate].
Qed.

(** C6, as the code has it.  For every height, a level outside the
    three values of [NivelAtividade] makes the function return [0]. *)
Theorem pc_5_11_unmatched_returns_zero (altura : Q) (nivel : string) :
  (forall n, nivel <> NivelAtividade_value n) ->
  necessidade_energetica_pc_5_11 altura nivel = Return 0.
Proof.
  intros H. unfold necessidade_energetica_pc_5_11.
  destruct (String.eqb_spec nivel (NivelAtividade_value LEVE_MODERADA)) as [E | _];
    [destruct (H _ E) |].
  destruct (String.eqb_spec nivel (NivelAtividade_value RESTRITA_INTENSA)) as [E | _];
    [destruct (H _ E) |].
  destruct (String.eqb_spec nivel (NivelAtividade_value RESTRICAO_GRAVE)) as [E | _];
    [destruct (H _ E) |].
  reflexivity.
Qed.

Lemma pc_5_11_unmatched_returns_zero_witness :
  necessidade_energetica_pc_5_11 95 "" = Return 0.
Proof.
  apply (pc_5_11_unmatched_returns_zero 95 "").
  intros n; destruct n; discriminate.
Defined.

(** The three values of the enumeration select the coefficients 13.9,
    10 and 11.1. *)
Lemma pc_5_11_levels (altura : Q) (n : NivelAtividade) :
  necessidade_energetica_pc_5_11 altura (NivelAtividade_value n) =
  Return (match n with
          | LEVE_MODERADA => 13.9
          | RESTRITA_INTENSA => 10
          | RESTRICAO_GRAVE => 11.1
          end * altura).
Proof. destruct n; reflexivity. Qed.

(** C1, refuted as stated.  At 120 cm the walking child gets
    [14 * 120] and the child that does not walk [11 * 120]: the
    coefficients 11 and 14 are keyed the other way round. *)
Lemma pc_estaveis_ambulatory_is_14 :
  necessidade_energetica_pc_estaveis 120 (MotorCondition_value Ambulatory)
    = Return (14 * 120)
  /\ ~ outcome_eq
         (necessidade_energetica_pc_estaveis 120 (MotorCondition_value Ambulatory))
         (Return (11 * 120))
  /\ ~ outcome_eq
         (necessidade_energetica_pc_estaveis 120 (MotorCondition_value NonAmbulatory))
         (Return (14 * 120)).
Proof. repeat split; discriminate. Qed.

(** C1, as the code has it.  For every positive height the function
    multiplies the height by 15 for NoDysfunction, by 14 for Ambulatory
    and by 11 for NonAmbulatory. *)
Theorem pc_estaveis_coefficients (altura : Q) :
  0 < altura ->
  necessidade_energetica_pc_estaveis altura (MotorCondition_value NoDysfunction)
    = Return (15 * altura)
  /\ necessidade_energetica_pc_estaveis altura (MotorCondition_value Ambulatory)
    = Return (14 * altura)
  /\ necessidade_energetica_pc_estaveis altura (MotorCondition_value NonAmbulatory)
    = Return (11 * altura).
Proof. intros _. repeat split. Qed.

Lemma pc_estaveis_coefficients_witness :
  necessidade_energetica_pc_estaveis 150 (MotorCondition_value NoDysfunction)
    = Return (15 * 150)
  /\ necessidade_energetica_pc_estaveis 150 (MotorCondition_value Ambulatory)
    = Return (14 * 150)
  /\ necessidade_energetica_pc_estaveis 150 (MotorCondition_value NonAmbulatory)
    = Return (11 * 150).
Proof. apply (pc_estaveis_coefficients 150). reflexivity. Defined.

(** The same table read through [MotorCondition_coefficient]; the
    interface charts these very values (line 985). *)
Lemma pc_estaveis_by_condition (altura : Q) (m : MotorCondition) :
  necessidade_energetica_pc_estaveis altura (MotorCondition_value m)
  = Return (MotorCondition_coefficient m * altura).
Proof. destruct m; reflexivity. Qed.

(** ** Cerebral palsy: energy need by age band *)

(** C3, on the code.  With valid weight, height and stress factor and
    the age 19 the call does not return: the local [base] was bound in
    no band and reading it raises [UnboundLocalError]. *)
Theorem necessidade_pc_age_19_raises :
  calcular_necessidade_pc 15 1 (Member MASCULINO) 19 1.2
  = Raise (UnboundLocalError "base").
Proof. reflexivity. Qed.

(** The same for every age above 18, every sex argument and all
    positive measurements: never the [None] of the signature's
    [Optional[float]], and no validation failure either. *)
Lemma necessidade_pc_above_18
    (peso altura : Q) (sexo : arg Sexo) (idade fator_estresse : Q) :
  0 < peso -> 0 < altura -> 0 < fator_estresse -> 18 < idade ->
  calcular_necessidade_pc peso altura sexo idade fator_estresse
  = Raise (UnboundLocalError "base").
Proof.
  intros Hp Ha Hf Hi. unfold calcular_necessidade_pc.
  assert (H0 : 0 <= idade) by lra. guards.
  unfold calcular_necessidade_pc_base.
  destruct (is_member sexo FEMININO); bands; reflexivity.
Qed.

(** Within the bands the function returns the base times the stress
    factor. *)
Lemma necessidade_pc_within_bands
    (peso altura : Q) (sexo : arg Sexo) (idade fator_estresse : Q) :
  0 < peso -> 0 < altura -> 0 < fator_estresse -> 0 <= idade <= 18 ->
  exists base,
    calcular_necessidade_pc_base peso altura sexo idade = Some base
    /\ calcular_necessidade_pc peso altura sexo idade fator_estresse
       = Return (base * fator_estresse).
Proof.
  intros Hp Ha Hf [H0 H18]. unfold calcular_necessidade_pc. guards.
  unfold calcular_necessidade_pc_base.
  destruct (is_member sexo FEMININO); bands; eexists; split; reflexivity.
Qed.

(** The sibling [calcular_tmb] has the same three bands and does end
    in [return None]. *)
Lemma calcular_tmb_above_18 (peso idade : Q) (sexo : arg Sexo) :
  0 < peso -> 18 < idade -> calcular_tmb peso idade sexo = ReturnNone.
Proof.
  intros Hp Hi. unfold calcular_tmb.
  assert (H0 : 0 <= idade) by lra. guards.
  destruct (is_member sexo MASCULINO); bands; reflexivity.
Qed.

(** ** Energy requirement of children and adolescents *)

(** C4, refuted as stated.  The age 2.95 lies in [0, 18] and gets no
    result, and a negative age is a validation failure instead of "no
    result". *)
Lemma requerimento_gap_and_negative_age :
  (0 <= 2.95 <= 18
   /\ calcular_requerimento_energetico 2.95 14 0.95 (Member FEMININO) 1.2
      = ReturnNone)
  /\ calcular_requerimento_energetico (-1) 14 0.95 (Member FEMININO) 1.2
     = Raise ValoresNaoPositivos.
Proof. repeat split; discriminate. Qed.

(** C4, as the code has it.  With positive weight, height and activity
    factor and either sex: an age in [0, 2.92] or in [3, 18] gets a
    number; an age above 18 gets "no result"; a negative age fails the
    validation. *)
Theorem requerimento_energetico_by_age
    (idade peso estatura : Q) (s : Sexo) (fator_atividade : Q) :
  0 < peso -> 0 < estatura -> 0 < fator_atividade ->
  (0 <= idade <= 2.92 \/ 3 <= idade <= 18 ->
   exists v,
     calcular_requerimento_energetico idade peso estatura (Member s)
       fator_atividade = Return v)
  /\ (18 < idade ->
      calcular_requerimento_energetico idade peso estatura (Member s)
        fator_atividade = ReturnNone)
  /\ (idade < 0 ->
      calcular_requerimento_energetico idade peso estatura (Member s)
        fator_atividade = Raise ValoresNaoPositivos).
Proof.
  intros Hp He Hf. unfold calcular_requerimento_energetico.
  repeat split.
  - intros Hi. assert (H0 : 0 <= idade) by lra. guards.
    destruct s; bands; eexists; reflexivity.
  - intros Hi. assert (H0 : 0 <= idade) by lra. guards.
    bands; reflexivity.
  - intros Hi. apply Qlt_bool_iff in Hi. now rewrite Hi.
Qed.

Lemma requerimento_energetico_by_age_witness :
  exists v,
    calcular_requerimento_energetico 5 20 1.1 (Member MASCULINO) 1.2 = Return v.
Proof.
  refine (proj1 (requerimento_energetico_by_age 5 20 1.1 MASCULINO 1.2 _ _ _) _);
    try reflexivity.
  right. split; discriminate.
Defined.

(** Between the band that ends at 2.92 and the band that starts at 3
    no branch matches: such an age falls to the final [return None]. *)
Lemma requerimento_energetico_gap
    (idade peso estatura : Q) (sexo : arg Sexo) (fator_atividade : Q) :
  0 < peso -> 0 < estatura -> 0 < fator_atividade ->
  2.92 < idade < 3 ->
  calcular_requerimento_energetico idade peso estatura sexo fator_atividade
  = ReturnNone.
Proof.
  intros Hp He Hf [Hlo Hhi]. unfold calcular_requerimento_energetico.
  assert (H0 : 0 <= idade) by lra. guards.
  bands; reflexivity.
Qed.

(** X30.  With valid arguments, [None] comes out exactly in the gap
    between 2.92 and 3 years and above 18. *)
Lemma requerimento_energetico_none_iff
    (idade peso estatura : Q) (sexo : arg Sexo) (fator_atividade : Q) :
  0 <= idade -> 0 < peso -> 0 < estatura -> 0 < fator_atividade ->
  calcular_requerimento_energetico idade peso estatura sexo fator_atividade
    = ReturnNone
  <-> 2.92 < idade < 3 \/ 18 < idade.
Proof.
  intros H0 Hp He Hf. unfold calcular_requerimento_energetico. guards.
  destruct (is_member sexo MASCULINO); bands;
    (split; intros H;
     [try discriminate H; solve [left; lra | right; lra]
     | try reflexivity; destruct H; exfalso; lra]).
Qed.

(** ** Total energy expenditure *)

Lemma truthy_given_nonzero (fator : option Q) :
  truthy fator = true <-> given_nonzero fator.
Proof.
  destruct fator as [x |].
  - rewrite truthy_Some. split.
    + intros H. now exists x.
    + intros [y [[= <-] H]]. exact H.
  - split; [discriminate | intros [y [[=] _]]].
Qed.

Lemma truthy_false_not_given (fator : option Q) :
  truthy fator = false <-> ~ given_nonzero fator.
Proof.
  rewrite <- truthy_given_nonzero. now destruct (truthy fator).
Qed.

(** The function on each of the four truth-value combinations. *)
Lemma gasto_energetico_total_cases (ere : Q) (fa fe : option Q) :
  0 < ere ->
  calcular_gasto_energetico_total ere fa fe =
    match truthy fa, truthy fe with
    | true, true => Raise InvalidCombination
    | true, false => times ere fa
    | false, true => times ere fe
    | false, false => Return ere
    end.
Proof.
  intros He. unfold calcular_gasto_energetico_total. guards.
  destruct (truthy fa), (truthy fe); reflexivity.
Qed.

(** C2, refuted as stated.  Both factors supplied at the neutral value
    1.0, neither greater than it: the call fails with
    [InvalidCombination].  And a single factor supplied as zero leaves
    the basal rate as it is instead of multiplying it. *)
Lemma gasto_energetico_total_neutral_pair_rejected :
  (~ 1 < 1
   /\ calcular_gasto_energetico_total 1500 (Some 1) (Some 1)
      = Raise InvalidCombination)
  /\ (calcular_gasto_energetico_total 1500 (Some 0) None = Return 1500
      /\ ~ 1500 == 1500 * 0).
Proof. repeat split; discriminate. Qed.

(** C2, as the code has it.  For a positive basal rate the call fails
    with [InvalidCombination] if and only if both factors are supplied
    and non-zero; with neither factor it returns the basal rate
    unchanged; with exactly one factor, non-zero, it returns the basal
    rate times that factor. *)
Theorem gasto_energetico_total_combination (ere : Q) (fa fe : option Q) :
  0 < ere ->
  (calcular_gasto_energetico_total ere fa fe = Raise InvalidCombination
   <-> given_nonzero fa /\ given_nonzero fe)
  /\ calcular_gasto_energetico_total ere None None = Return ere
  /\ (forall x, ~ x == 0 ->
        calcular_gasto_energetico_total ere (Some x) None = Return (ere * x)
        /\ calcular_gasto_energetico_total ere None (Some x) = Return (ere * x)).
Proof.
  intros He. split; [| split].
  - rewrite (gasto_energetico_total_cases ere fa fe He). split.
    + intros H. destruct (truthy fa) eqn:Ea, (truthy fe) eqn:Ee.
      * split; now apply truthy_given_nonzero.
      * destruct fa; [discriminate H | discriminate Ea].
      * destruct fe; [discriminate H | discriminate Ee].
      * discriminate H.
    + intros [Ha Hb]. apply truthy_given_nonzero in Ha, Hb.
      now rewrite Ha, Hb.
  - now rewrite gasto_energetico_total_cases.
  - intros x Hx. apply truthy_Some in Hx.
    split; rewrite gasto_energetico_total_cases by assumption;
      rewrite Hx; reflexivity.
Qed.

Lemma gasto_energetico_total_combination_witness :
  calcular_gasto_energetico_total 1500 (Some 1.2) None = Return (1500 * 1.2)
  /\ calcular_gasto_energetico_total 1500 None (Some 1.2) = Return (1500 * 1.2).
Proof.
  refine (proj2 (proj2 (gasto_energetico_total_combination
                          1500 (Some 1.2) None _)) 1.2 _).
  - reflexivity.
  - discriminate.
Defined.

(** A factor supplied as zero counts as not supplied. *)
Lemma gasto_energetico_total_zero_factor (ere x : Q) (fe : option Q) :
  0 < ere -> x == 0 ->
  calcular_gasto_energetico_total ere (Some x) fe
  = calcular_gasto_energetico_total ere None fe.
Proof.
  intros He Hx. rewrite !gasto_energetico_total_cases by assumption.
  assert (E : truthy (Some x) = false).
  { apply truthy_false_not_given. intros [y [[= <-] H]]. now apply H. }
  rewrite E. reflexivity.
Qed.

(** A basal rate that is not positive fails first, whatever the
    factors. *)
Lemma gasto_energetico_total_ere_guard (ere : Q) (fa fe : option Q) :
  ere <= 0 -> calcular_gasto_energetico_total ere fa fe = Raise ERENaoPositivo.
Proof.
  intros He. unfold calcular_gasto_energetico_total.
  now rewrite (Qle_bool_true _ _ He).
Qed.

(** ** Arm fat area *)

Lemma Z_of_fact_S (n : nat) :
  Z.of_nat (fact (S n)) = (Z.of_nat (S n) * Z.of_nat (fact n))%Z.
Proof.
  change (fact (S n)) with (S n * fact n)%nat. apply Nat2Z.inj_mul.
Qed.

(** The constant of the source is below pi: the cosine is still
    positive at 1.57, by its Taylor polynomial of degree ten. *)
Lemma PI_above_source_constant : (3.14 < PI)%R.
Proof.
  assert (H : (1.57 < PI / 2)%R); [| Lra.lra].
  apply PI2_lower_bound; [split; Lra.lra |].
  destruct (pre_cos_bound 1.57 2) as [below _]; [Lra.lra | Lra.lra |].
  eapply Rlt_le_trans; [| exact below].
  unfold cos_approx, cos_term. cbn [sum_f_R0 Nat.mul Nat.add].
  rewrite !INR_IZR_INZ, !Z_of_fact_S, !mult_IZR.
  cbn [fact Z.of_nat Pos.of_succ_nat Pos.succ].
  Lra.lra.
Qed.

Lemma Q2R_square (x : Q) : Q2R (x ^ 2) = (Q2R x ^ 2)%R.
Proof.
  change (x ^ 2) with (x * x). rewrite Q2R_mult. simpl. ring.
Qed.

Lemma square_lt (x y : R) : (0 <= x < y -> x ^ 2 < y ^ 2)%R.
Proof.
  intros [H0 H1]. simpl. rewrite !Rmult_1_r.
  apply Rmult_le_0_lt_compat; assumption.
Qed.

(** The number the source computes, read as a real. *)
Lemma area_gorda_braco_real (c a : Q) :
  Q2R (0.79 * ((c / 3.14) ^ 2) - a)
  = (0.79 * (Q2R c / 3.14) ^ 2 - Q2R a)%R.
Proof.
  rewrite Q2R_minus, Q2R_mult, Q2R_square, Q2R_div by discriminate.
  replace (Q2R 0.79) with 0.79%R by (unfold Q2R; simpl; Lra.lra).
  replace (Q2R 3.14) with 3.14%R by (unfold Q2R; simpl; Lra.lra).
  reflexivity.
Qed.

(** With exact pi the value would be smaller for every positive
    circumference: the source always overestimates the area. *)
Lemma area_gorda_braco_overestimates (c a : Q) :
  0 < c ->
  (0.79 * (Q2R c / PI) ^ 2 - Q2R a
   < Q2R (0.79 * ((c / 3.14) ^ 2) - a))%R.
Proof.
  intros Hc. rewrite area_gorda_braco_real.
  pose proof PI_above_source_constant as Hpi.
  assert (Hr : (0 < Q2R c)%R).
  { replace 0%R with (Q2R 0) by (unfold Q2R; simpl; Lra.lra).
    now apply Qlt_Rlt. }
  apply Rplus_lt_compat_r, Rmult_lt_compat_l; [Lra.lra |].
  assert (Hinv : (/ PI < / 3.14)%R)
    by (apply Rinv_lt_contravar; [apply Rmult_lt_0_compat |]; Lra.lra).
  assert (Hpos : (0 < / PI)%R) by (apply Rinv_0_lt_compat; Lra.lra).
  unfold Rdiv. apply square_lt. split.
  - apply Rlt_le, Rmult_lt_0_compat; assumption.
  - apply Rmult_lt_compat_l; assumption.
Qed.

(** C7, refuted as stated.  For the circumference 31.4 and the muscle
    area 40 the function returns 39, which is strictly more than
    [0.79 * (31.4 / pi)^2 - 40]. *)
Lemma area_gorda_braco_not_exact_pi :
  exists v,
    calcular_area_gorda_braco 31.4 40 = Return v
    /\ v == 39
    /\ (0.79 * (Q2R 31.4 / PI) ^ 2 - Q2R 40 < Q2R v)%R.
Proof.
  eexists. split; [reflexivity |]. split; [reflexivity |].
  now apply area_gorda_braco_overestimates.
Qed.

(** C7, as the code has it.  For positive circumference and muscle
    area the function returns [0.79 * (c / 3.14)^2 - area], with the
    decimal 3.14 where the formula has pi. *)
Theorem area_gorda_braco_formula (c a : Q) :
  0 < c -> 0 < a ->
  exists v,
    calcular_area_gorda_braco c a = Return v
    /\ Q2R v = (0.79 * (Q2R c / 3.14) ^ 2 - Q2R a)%R.
Proof.
  intros Hc Ha. unfold calcular_area_gorda_braco. guards.
  eexists. split; [reflexivity | apply area_gorda_braco_real].
Qed.

Lemma area_gorda_braco_formula_witness :
  exists v,
    calcular_area_gorda_braco 28 35 = Return v
    /\ Q2R v = (0.79 * (Q2R 28 / 3.14) ^ 2 - Q2R 35)%R.
Proof. apply (area_gorda_braco_formula 28 35); reflexivity. Defined.

(** * Further properties *)

(** ** Weight loss *)

(** The returned percentage, cleared of its division. *)
Lemma perda_peso_value (usual atual : Q) :
  0 < usual ->
  exists v,
    calcular_perda_peso usual atual = Return v
    /\ v * usual == 100 * (usual - atual).
Proof.
  intros Hu. unfold calcular_perda_peso. guards.
  eexists. split; [reflexivity |]. field. lra.
Qed.

(** X1.  For a positive usual weight the percentage gives the current
    weight back as [usual * (1 - v / 100)]; it is positive exactly when
    weight was lost, and it exceeds 100 exactly when the current
    weight, which is not validated, is negative. *)
Theorem perda_peso_inverts (usual atual : Q) :
  0 < usual ->
  exists v,
    calcular_perda_peso usual atual = Return v
    /\ atual == usual * (1 - v / 100)
    /\ (0 < v <-> atual < usual)
    /\ (100 < v <-> atual < 0).
Proof.
  intros Hu. destruct (perda_peso_value usual atual Hu) as [v [E Hv]].
  exists v. split; [exact E |].
  unfold Qdiv; change (/ 100) with (1 # 100).
  repeat split; intros; nra.
Qed.

Lemma perda_peso_inverts_witness :
  exists v,
    calcular_perda_peso 70 65 = Return v
    /\ 65 == 70 * (1 - v / 100)
    /\ (0 < v <-> 65 < 70)
    /\ (100 < v <-> 65 < 0).
Proof. apply (perda_peso_inverts 70 65). reflexivity. Defined.



(** ** Stature estimates *)

(** X3.  For a positive tibial length the cerebral-palsy estimate
    stored under ['Estimada_CT'] is the plain tibia estimate plus 1.4;
    for a length that is not positive the plain estimate is refused
    while the cerebral-palsy one is still computed. *)
Theorem estatura_pc_tibial_offset (cs ct cj : Q) :
  (0 < ct ->
   exists v w,
     estimar_estatura_tibia ct = Return v
     /\ dict_get (estimar_estatura_paralisia_cerebral cs ct cj) "Estimada_CT"
        = Some w
     /\ w == v + 1.4)
  /\ (ct <= 0 ->
      validation_failure (estimar_estatura_tibia ct)
      /\ dict_get (estimar_estatura_paralisia_cerebral cs ct cj) "Estimada_CT"
         = Some (3.26 * ct + 30.8 + 1.4)).
Proof.
  unfold estimar_estatura_tibia. split.
  - intros Hct. guards. do 2 eexists.
    split; [reflexivity |]. split; [reflexivity |]. lra.
  - intros Hct. rewrite (Qle_bool_true _ _ Hct).
    split; [eexists; reflexivity | reflexivity].
Qed.

(** X4.  The mean the page shows for the three cerebral-palsy
    estimates is [(4.35 cs + 3.26 ct + 2.69 cj + 81) / 3], and each of
    the three keys the page reads is present. *)
Theorem estatura_pc_media (cs ct cj : Q) :
  let resultados := estimar_estatura_paralisia_cerebral cs ct cj in
  media resultados == (4.35 * cs + 3.26 * ct + 2.69 * cj + 81) / 3
  /\ (exists a b c,
        dict_get resultados "Estimada_CS" = Some a
        /\ dict_get resultados "Estimada_CT" = Some b
        /\ dict_get resultados "Estimada_CJ" = Some c
        /\ media resultados == (a + b + c) / 3).
Proof.
  cbv zeta. split.
  - unfold media, py_sum, dict_values, estimar_estatura_paralisia_cerebral.
    cbn [map snd fold_left length Z.of_nat Pos.of_succ_nat Pos.succ].
    unfold Qdiv. change (/ inject_Z 3) with (1 # 3). change (/ 3) with (1 # 3).
    ring.
  - do 3 eexists. repeat (split; [reflexivity |]).
    unfold media, py_sum, dict_values, estimar_estatura_paralisia_cerebral.
    cbn [map snd fold_left length Z.of_nat Pos.of_succ_nat Pos.succ].
    unfold Qdiv. change (/ inject_Z 3) with (1 # 3). change (/ 3) with (1 # 3).
    ring.
Qed.

(** ** Corrected age of the premature child *)

(** X5.  The call fails exactly when the gestational age is below 20
    or above 42 weeks, whatever the chronological age. *)
Theorem idade_corrigida_fails_iff (ic ig : Q) :
  validation_failure (calcular_idade_corrigida ic ig) <-> ig < 20 \/ 42 < ig.
Proof.
  unfold calcular_idade_corrigida. bands; cbn [orb];
    (split; [intros [msg H]; try discriminate H; (left; lra) || (right; lra)
            | intros [H | H]; try (exfalso; lra); eexists; reflexivity]).
Qed.

(** X6.  Within 20 to 42 weeks the months taken off, times 4.34524,
    are the weeks missing to 40.  So the corrected age is at most the
    chronological age exactly up to 40 weeks (above 40 weeks age is
    added), and it is negative exactly when the child is younger than
    its prematurity: nothing clamps it at zero. *)
Theorem idade_corrigida_correction (ic ig : Q) :
  20 <= ig <= 42 ->
  exists v,
    calcular_idade_corrigida ic ig = Return v
    /\ (ic - v) * 4.34524 == 40 - ig
    /\ (v <= ic <-> ig <= 40)
    /\ (v < 0 <-> ic * 4.34524 < 40 - ig).
Proof.
  intros [Hlo Hhi]. unfold calcular_idade_corrigida.
  bands; cbn [orb].
  eexists. split; [reflexivity |].
  set (v := ic - (40 - ig) / 4.34524).
  assert (Hv : (ic - v) * 4.34524 == 40 - ig) by (unfold v; field).
  split; [exact Hv |]. split; split; intros; nra.
Qed.

Lemma idade_corrigida_correction_witness :
  exists v,
    calcular_idade_corrigida 3 32 = Return v
    /\ (3 - v) * 4.34524 == 40 - 32
    /\ (v <= 3 <-> 32 <= 40)
    /\ (v < 0 <-> 3 * 4.34524 < 40 - 32).
Proof.
  apply (idade_corrigida_correction 3 32). split; discriminate.
Defined.

(** ** Weight corrected for an amputation *)

Lemma peso_corrigido_value (peso pct : Q) :
  0 < peso -> 0 <= pct -> pct < 100 ->
  exists v,
    calcular_peso_corrigido_amputacao peso pct = Return v
    /\ v * (100 - pct) == peso * 100.
Proof.
  intros Hp H0 H100. unfold calcular_peso_corrigido_amputacao. guards.
  rewrite (proj2 (Qle_bool_false 100 pct) H100).
  eexists. split; [reflexivity |]. field. lra.
Qed.

(** X7.  The call fails exactly when the weight is not positive or the
    percentage lies outside [0, 100): 100 itself, which would divide by
    zero, is refused. *)
Theorem peso_corrigido_fails_iff (peso pct : Q) :
  validation_failure (calcular_peso_corrigido_amputacao peso pct)
  <-> peso <= 0 \/ pct < 0 \/ 100 <= pct.
Proof.
  unfold calcular_peso_corrigido_amputacao. bands; cbn [orb];
    (split;
     [intros [msg H]; try discriminate H;
      solve [left; lra | right; left; lra | right; right; lra]
     | intros [H | [H | H]]; try (exfalso; lra); eexists; reflexivity]).
Qed.

(** X8.  For a positive weight and a percentage in [0, 100) the
    corrected weight [v] satisfies [v * (100 - pct) = 100 * peso]: the
    current weight is the share [100 - pct] of it.  It is never below
    the current weight, equals it only for 0%, and grows with the
    percentage. *)
Theorem peso_corrigido_restores (peso pct : Q) :
  0 < peso -> 0 <= pct < 100 ->
  exists v,
    calcular_peso_corrigido_amputacao peso pct = Return v
    /\ v * (100 - pct) == peso * 100
    /\ peso <= v
    /\ (v == peso <-> pct == 0)
    /\ (forall pct' v', pct < pct' < 100 ->
          calcular_peso_corrigido_amputacao peso pct' = Return v' -> v < v').
Proof.
  intros Hp [H0 H100].
  destruct (peso_corrigido_value peso pct Hp H0 H100) as [v [E Hv]].
  exists v. split; [exact E |]. split; [exact Hv |].
  assert (Hpos : 0 < v) by nra.
  split; [nra |]. split; [split; intros; nra |].
  intros pct' v' [Hlt Hlt'] E'.
  destruct (peso_corrigido_value peso pct' Hp) as [w [Ew Hw]]; [lra | lra |].
  rewrite Ew in E'. injection E' as <-.
  assert (Hposw : 0 < w) by nra.
  nra.
Qed.

Lemma peso_corrigido_restores_witness :
  exists v,
    calcular_peso_corrigido_amputacao 70 10.1 = Return v
    /\ v * (100 - 10.1) == 70 * 100
    /\ 70 <= v
    /\ (v == 70 <-> 10.1 == 0)
    /\ (forall pct' v', 10.1 < pct' < 100 ->
          calcular_peso_corrigido_amputacao 70 pct' = Return v' -> v < v').
Proof.
  apply (peso_corrigido_restores 70 10.1); [reflexivity |].
  split; [discriminate | reflexivity].
Defined.

(** X9.  Every limb the page offers is in its table, with a
    percentage the formula accepts: for a positive weight the page
    always gets a corrected weight above the current one, and a limb
    outside the list has no entry. *)
Theorem pagina_amputacao_every_limb (peso : Q) (membro : string) :
  0 < peso ->
  (In membro membros ->
   exists v, pagina_amputacao peso membro = Some (Return v) /\ peso < v)
  /\ (~ In membro membros -> pagina_amputacao peso membro = None).
Proof.
  intros Hp. split.
  - intros Hin. unfold pagina_amputacao.
    repeat (destruct Hin as [<- | Hin]); [.. | destruct Hin];
      cbn [dict_get proporcoes String.eqb Ascii.eqb Bool.eqb];
      match goal with
      | |- context [calcular_peso_corrigido_amputacao peso ?p] =>
          destruct (peso_corrigido_value peso p Hp) as [v [E Hv]];
          [discriminate | reflexivity |];
          exists v; split; [now rewrite E | nra]
      end.
  - intros Hout. unfold pagina_amputacao, proporcoes. cbn [dict_get].
    repeat match goal with
    | |- context [String.eqb ?k membro] =>
        destruct (String.eqb_spec k membro) as [<- | _];
        [exfalso; apply Hout; cbn; tauto |]
    end.
    reflexivity.
Qed.

Lemma pagina_amputacao_every_limb_witness :
  (In "Coxa" membros ->
   exists v, pagina_amputacao 70 "Coxa" = Some (Return v) /\ 70 < v)
  /\ (~ In "Coxa" membros -> pagina_amputacao 70 "Coxa" = None).
Proof. apply (pagina_amputacao_every_limb 70 "Coxa"). reflexivity. Defined.

(** ** The page of the total energy expenditure *)

Lemma truthy_above_one (x : Q) : 1 < x -> truthy (Some x) = true.
Proof. intros H. apply truthy_Some. lra. Qed.

(** X10.  Called through its page, the function never fails for a
    positive basal rate: the page declines to call exactly when both
    factors exceed 1.0, and otherwise shows the basal rate times the
    one factor above 1.0, or the basal rate itself; the shown value is
    never below the basal rate. *)
Theorem pagina_get_never_rejected (ere fa fe : Q) :
  0 < ere ->
  (pagina_get ere fa fe = None <-> 1 < fa /\ 1 < fe)
  /\ (forall o, pagina_get ere fa fe = Some o ->
        exists v, o = Return v /\ ere <= v
                  /\ (1 < fa -> v == ere * fa)
                  /\ (1 < fe -> v == ere * fe)
                  /\ (fa <= 1 -> fe <= 1 -> v == ere)).
Proof.
  intros He. unfold pagina_get, Qlt_bool.
  destruct (Qle_bool fa 1) eqn:Ea; destruct (Qle_bool fe 1) eqn:Ee;
    [apply Qle_bool_iff in Ea | apply Qle_bool_iff in Ea
    | apply Qle_bool_false in Ea | apply Qle_bool_false in Ea];
    [apply Qle_bool_iff in Ee | apply Qle_bool_false in Ee
    | apply Qle_bool_iff in Ee | apply Qle_bool_false in Ee];
    cbn [negb andb].
  - split; [split; [discriminate | intros [H _]; exfalso; lra] |].
    intros o [= <-]. rewrite gasto_energetico_total_cases by assumption.
    exists ere. cbn. repeat split; intros; lra.
  - split; [split; [discriminate | intros [H _]; exfalso; lra] |].
    intros o [= <-]. rewrite gasto_energetico_total_cases by assumption.
    rewrite (truthy_above_one fe Ee). cbn [truthy times].
    eexists. split; [reflexivity |]. repeat split; intros; nra.
  - split; [split; [discriminate | intros [_ H]; exfalso; lra] |].
    intros o [= <-]. rewrite gasto_energetico_total_cases by assumption.
    rewrite (truthy_above_one fa Ea). cbn [truthy times].
    eexists. split; [reflexivity |]. repeat split; intros; nra.
  - split; [split; [tauto | reflexivity] | discriminate].
Qed.

Lemma pagina_get_never_rejected_witness :
  (pagina_get 1500 1.2 1 = None <-> 1 < 1.2 /\ 1 < 1)
  /\ (forall o, pagina_get 1500 1.2 1 = Some o ->
        exists v, o = Return v /\ 1500 <= v
                  /\ (1 < 1.2 -> v == 1500 * 1.2)
                  /\ (1 < 1 -> v == 1500 * 1)
                  /\ (1.2 <= 1 -> 1 <= 1 -> v == 1500)).
Proof. apply (pagina_get_never_rejected 1500 1.2 1). reflexivity. Defined.

(** ** Body fat percentage *)

Lemma tanner_valid (t : Z) :
  in_list t [1; 2; 3; 4; 5]%Z = true <-> (1 <= t <= 5)%Z.
Proof.
  unfold in_list. cbn [existsb]. rewrite !orb_true_iff, !Z.eqb_eq. lia.
Qed.

Lemma tanner_cases (t : Z) :
  (1 <= t <= 5)%Z -> (t = 1 \/ t = 2 \/ t = 3 \/ t = 4 \/ t = 5)%Z.
Proof. lia. Qed.

(** Splits a valid Tanner stage into its five values. *)
Ltac each_stage H :=
  destruct (tanner_cases _ H) as [-> | [-> | [-> | [-> | ->]]]].

(** Evaluates the tests of [calcular_percentual_gordura] on concrete
    stages and members, leaving the arithmetic alone. *)
Ltac gordura_tests :=
  cbn [in_list existsb Z.eqb Pos.eqb orb negb is_member enum_eqb
       Sexo_eq Raca_eq].

(** X11.  The call fails exactly when the skinfold sum is not positive
    or the Tanner stage is outside 1..5, for every sex and ethnicity
    (also above 35 mm and for girls, where the stage is not used). *)
Theorem percentual_gordura_fails_iff
    (soma : Q) (sexo : arg Sexo) (t : Z) (raca : arg Raca) :
  validation_failure (calcular_percentual_gordura soma sexo t raca)
  <-> soma <= 0 \/ ~ (1 <= t <= 5)%Z.
Proof.
  unfold calcular_percentual_gordura.
  destruct (Qle_bool soma 0) eqn:Es;
    [apply Qle_bool_iff in Es | apply Qle_bool_false in Es].
  { split; [now left | intros _; eexists; reflexivity]. }
  destruct (in_list t [1; 2; 3; 4; 5]%Z) eqn:Et; cbn [negb].
  - apply tanner_valid in Et. split.
    + intros [msg H]. exfalso. revert H.
      repeat match goal with
             | |- context [if ?b then _ else _] => destruct b
             end; discriminate.
    + intros [H | H]; [exfalso; lra | contradiction].
  - split; [| intros _; eexists; reflexivity].
    intros _. right. rewrite <- tanner_valid, Et. discriminate.
Qed.

(** X12.  With a positive sum and a valid stage the result is [None]
    exactly for a boy (the sex being [MASCULINO]) whose ethnicity is no
    member of [Raca] and whose sum is at most 35: every other
    combination gets a number. *)
Theorem percentual_gordura_none_iff
    (soma : Q) (sexo : arg Sexo) (t : Z) (raca : arg Raca) :
  0 < soma -> (1 <= t <= 5)%Z ->
  calcular_percentual_gordura soma sexo t raca = ReturnNone
  <-> sexo = Member MASCULINO /\ (exists x, raca = Foreign x) /\ soma <= 35.
Proof.
  intros Hs Ht. unfold calcular_percentual_gordura. guards.
  rewrite (proj2 (tanner_valid t) Ht). cbn [negb]. unfold Qlt_bool.
  destruct (Qle_bool soma 35) eqn:E35;
    [apply Qle_bool_iff in E35 | apply Qle_bool_false in E35]; cbn [negb].
  - destruct sexo as [[] | x]; destruct raca as [[] | y]; each_stage Ht;
      gordura_tests;
      (split;
       [intros H; try discriminate H; repeat split; eauto
       | intros [H1 [[z H2] H3]]; try discriminate H1; try discriminate H2;
         reflexivity]).
  - destruct (is_member sexo MASCULINO);
      (split; [discriminate | intros [_ [_ H]]; exfalso; lra]).
Qed.

Lemma percentual_gordura_none_iff_witness :
  calcular_percentual_gordura 30 (Member MASCULINO) 2 (Foreign "Branca")
    = ReturnNone
  <-> Member MASCULINO = Member MASCULINO
      /\ (exists x, @Foreign Raca "Branca" = Foreign x) /\ 30 <= 35.
Proof.
  apply (percentual_gordura_none_iff 30 (Member MASCULINO) 2 (Foreign "Branca"));
    [reflexivity | lia].
Defined.

(** X13.  Above 35 mm the estimate depends on the sex only: any two
    valid stages and any two ethnicities give the same result. *)
Theorem percentual_gordura_high_sum_sex_only
    (soma : Q) (sexo : arg Sexo) (t t' : Z) (raca raca' : arg Raca) :
  35 < soma -> (1 <= t <= 5)%Z -> (1 <= t' <= 5)%Z ->
  calcular_percentual_gordura soma sexo t raca
  = calcular_percentual_gordura soma sexo t' raca'.
Proof.
  intros Hs Ht Ht'. unfold calcular_percentual_gordura.
  assert (H0 : 0 < soma) by lra. guards.
  rewrite (proj2 (tanner_valid t) Ht), (proj2 (tanner_valid t') Ht').
  rewrite (proj2 (Qlt_bool_iff 35 soma) Hs). reflexivity.
Qed.

Lemma percentual_gordura_high_sum_sex_only_witness :
  calcular_percentual_gordura 40 (Member MASCULINO) 1 (Member BRANCA)
  = calcular_percentual_gordura 40 (Member MASCULINO) 5 (Member NEGRA).
Proof.
  apply (percentual_gordura_high_sum_sex_only 40 (Member MASCULINO) 1 5);
    [reflexivity | lia | lia].
Defined.

(** X14.  For a girl the estimate ignores stage and ethnicity at every
    sum: the asymmetry with the boys' table is in the code. *)
Theorem percentual_gordura_girls_ignore_stage
    (soma : Q) (t t' : Z) (raca raca' : arg Raca) :
  (1 <= t <= 5)%Z -> (1 <= t' <= 5)%Z ->
  calcular_percentual_gordura soma (Member FEMININO) t raca
  = calcular_percentual_gordura soma (Member FEMININO) t' raca'.
Proof.
  intros Ht Ht'. unfold calcular_percentual_gordura.
  rewrite (proj2 (tanner_valid t) Ht), (proj2 (tanner_valid t') Ht').
  reflexivity.
Qed.

Lemma percentual_gordura_girls_ignore_stage_witness :
  calcular_percentual_gordura 22 (Member FEMININO) 1 (Member BRANCA)
  = calcular_percentual_gordura 22 (Member FEMININO) 4 (Foreign "Parda").
Proof.
  apply (percentual_gordura_girls_ignore_stage 22 1 4); lia.
Defined.

(** The boys' table below 35 mm: one quadratic, lowered by an offset
    that depends on ethnicity and stage. *)
Lemma percentual_gordura_boys_low (soma : Q) (t : Z) (r : Raca) :
  0 < soma -> soma <= 35 -> (1 <= t <= 5)%Z ->
  exists offset,
    calcular_percentual_gordura soma (Member MASCULINO) t (Member r)
    = Return (1.21 * soma - 0.008 * soma ^ 2 - offset)
    /\ offset ==
       match r with
       | BRANCA => if (t <=? 2)%Z then 1.7 else if (t =? 3)%Z then 3.4 else 5.5
       | NEGRA => if (t <=? 2)%Z then 3.2 else if (t =? 3)%Z then 5.2 else 6.8
       end.
Proof.
  intros Hs H35 Ht. unfold calcular_percentual_gordura. guards.
  rewrite (proj2 (tanner_valid t) Ht). cbn [negb]. unfold Qlt_bool.
  rewrite (Qle_bool_true _ _ H35). cbn [negb].
  destruct r; each_stage Ht; gordura_tests;
    eexists; (split; [reflexivity | reflexivity]).
Qed.

(** X15.  For a boy with a sum of at most 35 mm the estimate falls
    with the stage group (stages 1-2 above stage 3 above stages 4-5,
    equal inside a group) and is lower for [NEGRA] than for [BRANCA]
    at the same stage. *)
Theorem percentual_gordura_boys_order (soma : Q) (t t' : Z) (r : Raca) :
  0 < soma -> soma <= 35 -> (1 <= t <= 5)%Z -> (1 <= t' <= 5)%Z ->
  exists v v' vb vn,
    calcular_percentual_gordura soma (Member MASCULINO) t (Member r) = Return v
    /\ calcular_percentual_gordura soma (Member MASCULINO) t' (Member r) = Return v'
    /\ calcular_percentual_gordura soma (Member MASCULINO) t (Member BRANCA) = Return vb
    /\ calcular_percentual_gordura soma (Member MASCULINO) t (Member NEGRA) = Return vn
    /\ ((t <= 2 < t' \/ t <= 3 < t')%Z -> v' < v)
    /\ ((t <= 2 /\ t' <= 2 \/ 4 <= t /\ 4 <= t')%Z -> v' == v)
    /\ vn < vb.
Proof.
  intros Hs H35 Ht Ht'.
  destruct (percentual_gordura_boys_low soma t r Hs H35 Ht) as [o [-> Ho]].
  destruct (percentual_gordura_boys_low soma t' r Hs H35 Ht') as [o' [-> Ho']].
  destruct (percentual_gordura_boys_low soma t BRANCA Hs H35 Ht) as [ob [-> Hob]].
  destruct (percentual_gordura_boys_low soma t NEGRA Hs H35 Ht) as [on [-> Hon]].
  do 4 eexists. repeat (split; [reflexivity |]).
  set (q := 1.21 * soma - 0.008 * soma ^ 2).
  destruct r; each_stage Ht; each_stage Ht'; cbn in Ho, Ho', Hob, Hon;
    (split; [intros H | split; [intros H |]]); try (exfalso; lia); lra.
Qed.

Lemma percentual_gordura_boys_order_witness :
  exists v v' vb vn,
    calcular_percentual_gordura 20 (Member MASCULINO) 2 (Member NEGRA) = Return v
    /\ calcular_percentual_gordura 20 (Member MASCULINO) 3 (Member NEGRA) = Return v'
    /\ calcular_percentual_gordura 20 (Member MASCULINO) 2 (Member BRANCA) = Return vb
    /\ calcular_percentual_gordura 20 (Member MASCULINO) 2 (Member NEGRA) = Return vn
    /\ ((2 <= 2 < 3 \/ 2 <= 3 < 3)%Z -> v' < v)
    /\ ((2 <= 2 /\ 3 <= 2 \/ 4 <= 2 /\ 4 <= 3)%Z -> v' == v)
    /\ vn < vb.
Proof.
  apply (percentual_gordura_boys_order 20 2 3 NEGRA);
    [reflexivity | discriminate | lia | lia].
Defined.

(** X16.  Inside the lower tier the estimate grows with the sum: for
    either sex, both ethnicities and a valid stage, a larger sum of at
    most 35 mm gives a strictly larger percentage. *)
Theorem percentual_gordura_low_increasing
    (s1 s2 : Q) (s : Sexo) (t : Z) (r : Raca) :
  0 < s1 -> s1 < s2 -> s2 <= 35 -> (1 <= t <= 5)%Z ->
  exists v1 v2,
    calcular_percentual_gordura s1 (Member s) t (Member r) = Return v1
    /\ calcular_percentual_gordura s2 (Member s) t (Member r) = Return v2
    /\ v1 < v2.
Proof.
  intros H1 H12 H2 Ht. destruct s.
  - destruct (percentual_gordura_boys_low s1 t r) as [o1 [-> Ho1]];
      [lra | lra | exact Ht |].
    destruct (percentual_gordura_boys_low s2 t r) as [o2 [-> Ho2]];
      [lra | lra | exact Ht |].
    do 2 eexists. split; [reflexivity |]. split; [reflexivity |].
    assert (Ho : o1 == o2) by (rewrite Ho1, Ho2; reflexivity).
    change (s1 ^ 2) with (s1 * s1). change (s2 ^ 2) with (s2 * s2).
    nra.
  - unfold calcular_percentual_gordura.
    assert (H0 : 0 < s2) by lra. guards.
    rewrite (proj2 (tanner_valid t) Ht). cbn [negb]. unfold Qlt_bool.
    rewrite (Qle_bool_true s1 35) by lra. rewrite (Qle_bool_true s2 35) by lra.
    cbn [negb is_member enum_eqb Sexo_eq].
    do 2 eexists. split; [reflexivity |]. split; [reflexivity |].
    change (s1 ^ 2) with (s1 * s1). change (s2 ^ 2) with (s2 * s2).
    nra.
Qed.

Lemma percentual_gordura_low_increasing_witness :
  exists v1 v2,
    calcular_percentual_gordura 10 (Member FEMININO) 3 (Member BRANCA) = Return v1
    /\ calcular_percentual_gordura 30 (Member FEMININO) 3 (Member BRANCA) = Return v2
    /\ v1 < v2.
Proof.
  apply (percentual_gordura_low_increasing 10 30 FEMININO 3 BRANCA);
    [reflexivity | reflexivity | discriminate | lia].
Defined.

(** X17.  Across the threshold the boys' estimate can fall: for a
    [BRANCA] boy in stage 1 or 2 every sum above 35 and below 37 mm
    gives a lower percentage than 35 mm itself. *)
Theorem percentual_gordura_falls_after_35 (soma : Q) (t : Z) :
  35 < soma -> soma < 37 -> (1 <= t <= 2)%Z ->
  exists v v35,
    calcular_percentual_gordura soma (Member MASCULINO) t (Member BRANCA)
      = Return v
    /\ calcular_percentual_gordura 35 (Member MASCULINO) t (Member BRANCA)
      = Return v35
    /\ v < v35.
Proof.
  intros Hlo Hhi Ht.
  destruct (percentual_gordura_boys_low 35 t BRANCA) as [o [-> Ho]];
    [reflexivity | discriminate | lia |].
  unfold calcular_percentual_gordura.
  assert (H0 : 0 < soma) by lra. guards.
  rewrite (proj2 (tanner_valid t)) by lia.
  rewrite (proj2 (Qlt_bool_iff 35 soma) Hlo). cbn [negb is_member enum_eqb Sexo_eq].
  do 2 eexists. split; [reflexivity |]. split; [reflexivity |].
  assert (Ho' : o == 1.7).
  { rewrite Ho. destruct (Z.leb_spec t 2); [reflexivity | lia]. }
  change (35 ^ 2) with (35 * 35). lra.
Qed.

Lemma percentual_gordura_falls_after_35_witness :
  exists v v35,
    calcular_percentual_gordura 36 (Member MASCULINO) 1 (Member BRANCA)
      = Return v
    /\ calcular_percentual_gordura 35 (Member MASCULINO) 1 (Member BRANCA)
      = Return v35
    /\ v < v35.
Proof.
  apply (percentual_gordura_falls_after_35 36 1); [reflexivity | reflexivity | lia].
Defined.

(** ** Arm muscle circumference and areas *)

(** X18.  For positive measurements the muscle area is the square of
    the muscle circumference over 12.56; the circumference is below
    the arm circumference and the area is never negative. *)
Theorem area_muscular_from_circ (c d : Q) :
  0 < c -> 0 < d ->
  exists cmb amb,
    calcular_circ_muscular_braco c d = Return cmb
    /\ calcular_area_muscular_braco c d = Return amb
    /\ amb * 12.56 == cmb * cmb
    /\ cmb < c
    /\ 0 <= amb.
Proof.
  intros Hc Hd.
  unfold calcular_circ_muscular_braco, calcular_area_muscular_braco. guards.
  cbv zeta. do 2 eexists. split; [reflexivity |]. split; [reflexivity |].
  set (cmb := c - 0.314 * (d / 10)).
  assert (E : cmb == c - 0.0314 * d) by (unfold cmb; field).
  change (cmb ^ 2) with (cmb * cmb).
  split; [field |]. split; [lra |].
  unfold Qdiv. change (/ 12.56) with (100 # 1256). nra.
Qed.

Lemma area_muscular_from_circ_witness :
  exists cmb amb,
    calcular_circ_muscular_braco 25 15 = Return cmb
    /\ calcular_area_muscular_braco 25 15 = Return amb
    /\ amb * 12.56 == cmb * cmb
    /\ cmb < 25
    /\ 0 <= amb.
Proof. apply (area_muscular_from_circ 25 15); reflexivity. Defined.

(** X19.  Feeding the muscle area into the fat area: when the skinfold
    leaves a positive muscle circumference ([0.0314 d < c]) the fat
    area is accepted and positive, and muscle plus fat area make up
    [0.79 * (c / 3.14)^2]. *)
Theorem area_gorda_of_area_muscular (c d : Q) :
  0 < c -> 0 < d -> 0.0314 * d < c ->
  exists amb agb,
    calcular_area_muscular_braco c d = Return amb
    /\ calcular_area_gorda_braco c amb = Return agb
    /\ 0 < agb
    /\ amb + agb == 0.79 * (c / 3.14) ^ 2.
Proof.
  intros Hc Hd Hm.
  unfold calcular_area_muscular_braco. guards. cbv zeta.
  set (amb := (c - 0.314 * (d / 10)) ^ 2 / 12.56).
  set (cmb := c - 0.0314 * d).
  assert (E : amb * 12.56 == cmb * cmb) by (unfold amb, cmb; field).
  assert (Hcmb : 0 < cmb) by (unfold cmb; lra).
  assert (Hcmb' : cmb < c) by (unfold cmb; lra).
  assert (Hamb : 0 < amb) by nra.
  exists amb. eexists. split; [reflexivity |].
  unfold calcular_area_gorda_braco.
  rewrite (positive_guard c Hc), (positive_guard amb Hamb). cbn [orb].
  split; [reflexivity |]. split; [| ring].
  assert (T : 0.79 * (c / 3.14) ^ 2 * 9.8596 == 0.79 * (c * c)) by field.
  set (total := 0.79 * (c / 3.14) ^ 2) in *.
  nra.
Qed.

Lemma area_gorda_of_area_muscular_witness :
  exists amb agb,
    calcular_area_muscular_braco 25 15 = Return amb
    /\ calcular_area_gorda_braco 25 amb = Return agb
    /\ 0 < agb
    /\ amb + agb == 0.79 * (25 / 3.14) ^ 2.
Proof. apply (area_gorda_of_area_muscular 25 15); reflexivity. Defined.

Lemma area_muscular_from_circ_value (c d : Q) :
  0 < c -> 0 < d ->
  exists amb, calcular_area_muscular_braco c d = Return amb /\ 0 <= amb.
Proof.
  intros Hc Hd. unfold calcular_area_muscular_braco. guards. cbv zeta.
  eexists. split; [reflexivity |].
  set (cmb := c - 0.314 * (d / 10)). change (cmb ^ 2) with (cmb * cmb).
  unfold Qdiv. change (/ 12.56) with (100 # 1256). nra.
Qed.

Lemma py_int_floor (x : Q) : 0 <= x -> py_int x = Qfloor x.
Proof.
  intros H. destruct x as [n d]. unfold py_int, Qfloor. cbn [Qnum Qden].
  apply Z.quot_div_nonneg; [| reflexivity].
  unfold Qle in H. cbn in H. lia.
Qed.

Lemma floor_reaches (x : Q) (z : Z) :
  (z <= Qfloor x)%Z <-> inject_Z z <= x.
Proof.
  split.
  - intros H. apply Qle_trans with (inject_Z (Qfloor x)).
    + rewrite <- Zle_Qle. exact H.
    + apply Qfloor_le.
  - intros H. rewrite <- (Qfloor_Z z). now apply Qfloor_resp_le.
Qed.

(** X20.  The percentile the page derives from a muscle area lies
    between 0 and 100 for all positive measurements, and it is 100
    exactly from 50 cm2 on. *)
Theorem percentil_bounds (c d : Q) :
  0 < c -> 0 < d ->
  exists amb,
    calcular_area_muscular_braco c d = Return amb
    /\ (0 <= percentil amb <= 100)%Z
    /\ (percentil amb = 100%Z <-> 50 <= amb).
Proof.
  intros Hc Hd.
  destruct (area_muscular_from_circ_value c d Hc Hd) as [amb [E Hamb]].
  exists amb. split; [exact E |]. unfold percentil.
  set (x := amb / 50 * 100).
  assert (Ex : x == 2 * amb) by (unfold x; field).
  assert (Hx : 0 <= x) by lra.
  rewrite (py_int_floor x Hx).
  assert (H0 : (0 <= Qfloor x)%Z) by (apply floor_reaches; exact Hx).
  split; [lia |].
  assert (H100 : (100 <= Qfloor x)%Z <-> 50 <= amb).
  { rewrite floor_reaches. change (inject_Z 100) with 100. split; intros; lra. }
  split; intros H.
  - apply H100. lia.
  - apply H100 in H. lia.
Qed.

Lemma percentil_bounds_witness :
  exists amb,
    calcular_area_muscular_braco 25 15 = Return amb
    /\ (0 <= percentil amb <= 100)%Z
    /\ (percentil amb = 100%Z <-> 50 <= amb).
Proof. apply (percentil_bounds 25 15); reflexivity. Defined.

(** ** A sex argument outside the enumeration *)

(** X21.  A sex that is no member of [Sexo] (for instance the string
    of the selection box) is silently computed with: as a girl by every
    formula that tests for [MASCULINO], as a boy by
    [calcular_necessidade_pc], which tests for [FEMININO]; only
    [estimar_peso_crianca] answers [None]. *)
Theorem foreign_sex_defaults
    (x : string) (peso altura idade fator soma : Q) (t : Z) (raca : arg Raca) :
  calcular_tmb peso idade (Foreign x) = calcular_tmb peso idade (Member FEMININO)
  /\ tmb_schofield peso altura idade (Foreign x)
     = tmb_schofield peso altura idade (Member FEMININO)
  /\ calcular_requerimento_energetico idade peso altura (Foreign x) fator
     = calcular_requerimento_energetico idade peso altura (Member FEMININO) fator
  /\ necessidade_energetica_pc peso altura idade (Foreign x)
     = necessidade_energetica_pc peso altura idade (Member FEMININO)
  /\ necessidade_sindrome_down altura (Foreign x)
     = necessidade_sindrome_down altura (Member FEMININO)
  /\ estimar_estatura_paralisia_adolescente idade (Foreign x) altura
     = estimar_estatura_paralisia_adolescente idade (Member FEMININO) altura
  /\ calcular_percentual_gordura soma (Foreign x) t raca
     = calcular_percentual_gordura soma (Member FEMININO) t raca
  /\ calcular_necessidade_pc peso altura (Foreign x) idade fator
     = calcular_necessidade_pc peso altura (Member MASCULINO) idade fator
  /\ (0 < peso -> 0 < altura ->
      estimar_peso_crianca peso altura (Foreign x) raca = ReturnNone).
Proof.
  repeat split. intros Hp Ha. unfold estimar_peso_crianca. guards. reflexivity.
Qed.

(** ** Basal metabolic rate *)

(** X22.  With a positive weight and an age that is not negative,
    [calcular_tmb] gives [None] exactly above 18 years and a number up
    to 18: whenever the page has a number to show, its comparison for
    ages above 18 (lines 884-889) cannot run. *)
Theorem calcular_tmb_none_iff (peso idade : Q) (sexo : arg Sexo) :
  0 < peso -> 0 <= idade ->
  (calcular_tmb peso idade sexo = ReturnNone <-> 18 < idade)
  /\ (forall v, calcular_tmb peso idade sexo = Return v -> idade <= 18)
  /\ (idade <= 18 -> exists v, calcular_tmb peso idade sexo = Return v).
Proof.
  intros Hp Hi. unfold calcular_tmb. guards.
  destruct (is_member sexo MASCULINO); bands;
    (split; [split; intros H; try discriminate H; try reflexivity; lra |]);
    (split; [intros v H; try discriminate H; lra
            | intros H; try (exfalso; lra); eexists; reflexivity]).
Qed.

Lemma calcular_tmb_none_iff_witness :
  (calcular_tmb 70 30 (Member MASCULINO) = ReturnNone <-> 18 < 30)
  /\ (forall v, calcular_tmb 70 30 (Member MASCULINO) = Return v -> 30 <= 18)
  /\ (30 <= 18 -> exists v, calcular_tmb 70 30 (Member MASCULINO) = Return v).
Proof.
  apply (calcular_tmb_none_iff 70 30 (Member MASCULINO));
    [reflexivity | discriminate].
Defined.

(** X23.  From one kilogram on and up to 18 years both rates are
    positive numbers, for every sex argument: on the Schofield page
    the comparison with [calcular_tmb] is always shown and its division
    by that rate is defined. *)
Theorem rates_positive (peso estatura idade : Q) (sexo : arg Sexo) :
  1 <= peso -> 0 <= idade <= 18 ->
  exists schofield tmb_normal,
    tmb_schofield peso estatura idade sexo = Return schofield
    /\ calcular_tmb peso idade sexo = Return tmb_normal
    /\ 0 < schofield
    /\ 0 < tmb_normal
    /\ truthy (Some tmb_normal) = true.
Proof.
  intros Hp [H0 H18]. unfold tmb_schofield, calcular_tmb.
  assert (Hp0 : 0 < peso) by lra. guards.
  destruct (is_member sexo MASCULINO); bands;
    do 2 eexists; (split; [reflexivity |]); (split; [reflexivity |]);
    (split; [lra |]); (split; [lra |]); apply truthy_Some; lra.
Qed.

Lemma rates_positive_witness :
  exists schofield tmb_normal,
    tmb_schofield 15 1 5 (Member FEMININO) = Return schofield
    /\ calcular_tmb 15 5 (Member FEMININO) = Return tmb_normal
    /\ 0 < schofield
    /\ 0 < tmb_normal
    /\ truthy (Some tmb_normal) = true.
Proof.
  apply (rates_positive 15 1 5 (Member FEMININO));
    [discriminate | split; discriminate].
Defined.

(** ** Cerebral palsy: scaling with the stress factor *)

(** X24.  Inside the age bands the need is linear in the stress
    factor: multiplying the factor by a positive [k] multiplies the
    result by [k]. *)
Theorem necessidade_pc_linear_in_stress
    (peso altura : Q) (sexo : arg Sexo) (idade fator k : Q) :
  0 < peso -> 0 < altura -> 0 <= idade <= 18 -> 0 < fator -> 0 < k ->
  exists v vk,
    calcular_necessidade_pc peso altura sexo idade fator = Return v
    /\ calcular_necessidade_pc peso altura sexo idade (k * fator) = Return vk
    /\ vk == k * v.
Proof.
  intros Hp Ha Hi Hf Hk.
  assert (Hkf : 0 < k * fator) by nra.
  destruct (necessidade_pc_within_bands peso altura sexo idade fator
              Hp Ha Hf Hi) as [base [Eb E]].
  destruct (necessidade_pc_within_bands peso altura sexo idade (k * fator)
              Hp Ha Hkf Hi) as [base' [Eb' E']].
  rewrite Eb in Eb'. injection Eb' as <-.
  do 2 eexists. split; [exact E |]. split; [exact E' |]. ring.
Qed.

Lemma necessidade_pc_linear_in_stress_witness :
  exists v vk,
    calcular_necessidade_pc 15 1 (Member FEMININO) 5 1.2 = Return v
    /\ calcular_necessidade_pc 15 1 (Member FEMININO) 5 (2 * 1.2) = Return vk
    /\ vk == 2 * v.
Proof.
  apply (necessidade_pc_linear_in_stress 15 1 (Member FEMININO) 5 1.2 2);
    try reflexivity.
  split; discriminate.
Defined.

(** ** Adjusted weight away from the ideal *)

(** X25.  For positive weights the obesity adjustment lies between the
    ideal and the actual weight.  The malnutrition adjustment exceeds
    it by [actual - ideal]: below the ideal weight it is less than the
    actual weight, and it is zero or negative exactly when the ideal is
    at least five times the actual weight. *)
Theorem peso_ajustado_ranges (actual ideal : Q) :
  0 < actual -> 0 < ideal ->
  exists vo vd,
    calcular_peso_ajustado actual ideal (Member OBESIDADE) = Return vo
    /\ calcular_peso_ajustado actual ideal (Member DESNUTRICAO) = Return vd
    /\ (ideal <= actual -> ideal <= vo <= actual)
    /\ (actual <= ideal -> actual <= vo <= ideal)
    /\ vd - vo == actual - ideal
    /\ (actual < ideal -> vd < actual)
    /\ (vd <= 0 <-> 5 * actual <= ideal).
Proof.
  intros Ha Hi. unfold calcular_peso_ajustado. guards. cbn.
  do 2 eexists. split; [reflexivity |]. split; [reflexivity |].
  repeat split; intros; lra.
Qed.

Lemma peso_ajustado_ranges_witness :
  exists vo vd,
    calcular_peso_ajustado 40 60 (Member OBESIDADE) = Return vo
    /\ calcular_peso_ajustado 40 60 (Member DESNUTRICAO) = Return vd
    /\ (60 <= 40 -> 60 <= vo <= 40)
    /\ (40 <= 60 -> 40 <= vo <= 60)
    /\ vd - vo == 40 - 60
    /\ (40 < 60 -> vd < 40)
    /\ (vd <= 0 <-> 5 * 40 <= 60).
Proof. apply (peso_ajustado_ranges 40 60); reflexivity. Defined.

(** ** Sign of the basal expenditure of the critically ill child *)

(** X26.  The expenditure is positive exactly when
    [17 age + 48 weight + 292 temperature] exceeds 9677; this holds
    from 33.2 degrees on for every age that is not negative and every
    positive weight, and fails at 30 degrees for a weight of one
    kilogram up to 48 months of age. *)
Theorem geb_critica_sign (idade_meses peso temp_c : Q) :
  exists v,
    geb_critica idade_meses peso temp_c = Return v
    /\ (0 < v <-> 9677 < 17 * idade_meses + 48 * peso + 292 * temp_c)
    /\ (0 <= idade_meses -> 0 < peso -> 33.2 <= temp_c -> 0 < v)
    /\ (idade_meses <= 48 -> peso <= 1 -> temp_c <= 30 -> v < 0).
Proof.
  unfold geb_critica. eexists. split; [reflexivity |].
  repeat split; intros; lra.
Qed.

(** ** Child weight estimate: the unmatched branch and the slopes *)

(** X27.  For positive measurements the estimate is [None] exactly
    when the sex or the ethnicity is no member of its enumeration. *)
Theorem peso_crianca_none_iff
    (aj pb : Q) (sexo : arg Sexo) (raca : arg Raca) :
  0 < aj -> 0 < pb ->
  estimar_peso_crianca aj pb sexo raca = ReturnNone
  <-> (exists x, sexo = Foreign x) \/ (exists x, raca = Foreign x).
Proof.
  intros Hj Hb. unfold estimar_peso_crianca. guards.
  destruct sexo as [[] | x]; destruct raca as [[] | y]; cbn;
    (split;
     [intros H; try discriminate H; eauto
     | intros [[z H] | [z H]]; try discriminate H; reflexivity]).
Qed.

Lemma peso_crianca_none_iff_witness :
  estimar_peso_crianca 30 20 (Foreign "Masculino") (Member BRANCA) = ReturnNone
  <-> (exists x, @Foreign Sexo "Masculino" = Foreign x)
      \/ (exists x, Member BRANCA = Foreign x).
Proof.
  apply (peso_crianca_none_iff 30 20 (Foreign "Masculino") (Member BRANCA));
    reflexivity.
Defined.

(** X28.  For every sex and ethnicity the estimate grows with both
    measurements, strictly with the knee height; nothing keeps it
    positive: up to 30 cm of knee height and 10 cm of arm circumference
    it is a negative weight. *)
Theorem peso_crianca_increasing (s : Sexo) (r : Raca) (aj aj' pb pb' : Q) :
  0 < aj -> aj < aj' -> 0 < pb -> pb <= pb' ->
  exists v v',
    estimar_peso_crianca aj pb (Member s) (Member r) = Return v
    /\ estimar_peso_crianca aj' pb' (Member s) (Member r) = Return v'
    /\ v < v'
    /\ (aj <= 30 -> pb <= 10 -> v < 0).
Proof.
  intros Hj Hjj Hb Hbb. unfold estimar_peso_crianca.
  assert (Hj' : 0 < aj') by lra. assert (Hb' : 0 < pb') by lra. guards.
  destruct s, r; cbn; do 2 eexists;
    (split; [reflexivity |]); (split; [reflexivity |]);
    split; intros; lra.
Qed.

Lemma peso_crianca_increasing_witness :
  exists v v',
    estimar_peso_crianca 30 20 (Member MASCULINO) (Member NEGRA) = Return v
    /\ estimar_peso_crianca 45 20 (Member MASCULINO) (Member NEGRA) = Return v'
    /\ v < v'
    /\ (30 <= 30 -> 20 <= 10 -> v < 0).
Proof.
  apply (peso_crianca_increasing MASCULINO NEGRA 30 45 20 20);
    try reflexivity.
  discriminate.
Defined.

(** ** Energy requirement: what the infant bands read *)

(** X29.  Up to 2.92 years the requirement depends on age and weight
    only: any two sex arguments, heights and activity factors that pass
    the validation give the same result. *)
Theorem requerimento_infant_weight_only
    (idade peso : Q) (e1 e2 : Q) (s1 s2 : arg Sexo) (f1 f2 : Q) :
  0 <= idade <= 2.92 -> 0 < peso ->
  0 < e1 -> 0 < e2 -> 0 < f1 -> 0 < f2 ->
  calcular_requerimento_energetico idade peso e1 s1 f1
  = calcular_requerimento_energetico idade peso e2 s2 f2
  /\ exists v, calcular_requerimento_energetico idade peso e1 s1 f1 = Return v
               /\ 89 * peso - 100 + 20 <= v <= 89 * peso - 100 + 175.
Proof.
  intros [H0 H1] Hp He1 He2 Hf1 Hf2.
  unfold calcular_requerimento_energetico. guards.
  bands; (split; [reflexivity |]); eexists; (split; [reflexivity |]); lra.
Qed.

Lemma requerimento_infant_weight_only_witness :
  calcular_requerimento_energetico 0.4 6 0.6 (Member MASCULINO) 1
  = calcular_requerimento_energetico 0.4 6 0.7 (Member FEMININO) 1.5
  /\ exists v, calcular_requerimento_energetico 0.4 6 0.6 (Member MASCULINO) 1
               = Return v
               /\ 89 * 6 - 100 + 20 <= v <= 89 * 6 - 100 + 175.
Proof.
  apply (requerimento_infant_weight_only 0.4 6 0.6 0.7
           (Member MASCULINO) (Member FEMININO) 1 1.5);
    try reflexivity.
  split; discriminate.
Defined.

Lemma requerimento_energetico_none_iff_witness :
  calcular_requerimento_energetico 2.95 14 0.95 (Member FEMININO) 1.2 = ReturnNone
  <-> 2.92 < 2.95 < 3 \/ 18 < 2.95.
Proof.
  apply (requerimento_energetico_none_iff 2.95 14 0.95 (Member FEMININO) 1.2);
    try reflexivity.
  discriminate.
Defined.
